(** * Comparison metrics of the fraud dashboard: mock generator and report enhancer

    Shallow embedding of [utils/mockComparisonData.ts]
    ([generateMockComparisonData] and [enhanceReportWithComparison]) and the
    properties of the comparison and trust-scoring rules checked against it,
    followed by the code around it: the request of [services/api.ts] and the
    helpers of the ticket feed that enhances and lists the reports.

    Modelling choices.
    - A JavaScript [number] is an IEEE 754 binary64 value: Rocq's primitive
      [float], whose operations round to nearest even exactly as the
      JavaScript ones do. In particular [0 / 0] is NaN and nothing raises.
    - A typed object literal is a record with the members of [types.ts];
      an untyped ([any]) object is a finite map from member names to
      [JSValue]s.
    - A [const] of a function body is a definition of a [Section] whose
      variables are the values the body branches on. *)

From Stdlib Require Import PrimFloat Ascii.
From stdpp Require Import gmap strings list pretty.

Set Warnings "-inexact-float,-register-all,-clear-no-such-hyp".

(** ** JavaScript numbers *)

Module Num.

(** The number of an array length: lengths are integers below 2^32, which
    binary64 represents exactly, so counting up by one is exact. *)
Fixpoint of_nat (n : nat) : float :=
  match n with
  | O => 0%float
  | S k => (of_nat k + 1)%float
  end.

(** [Math.abs]. *)
Definition Math_abs (x : float) : float := PrimFloat.abs x.

(** [Math.min] of two numbers: NaN when either is NaN (the order of the
    two zeros is left out; the generator applies it to match counts). *)
Definition Math_min (x y : float) : float :=
  if PrimFloat.is_nan x || PrimFloat.is_nan y then PrimFloat.nan
  else if PrimFloat.ltb y x then y else x.

(** [x > y], [x >= y]: false whenever an operand is NaN. *)
Definition gt (x y : float) : bool := PrimFloat.ltb y x.
Definition ge (x y : float) : bool := PrimFloat.leb y x.

(** [x] shown with two decimals is [shown]: [x] lies within half a
    hundredth of it. *)
Definition shows_as (x shown : float) : bool :=
  PrimFloat.ltb (PrimFloat.abs (x - shown)) 0.005.

End Num.

(** ** The types of [types.ts] *)

Inductive ReliabilityRating := HIGH | MEDIUM | LOW.

Record DateMatches := {
  statement_gt_matches : float;
  treaty_gt_matches : float;
  statement_treaty_matches : float
}.

Record DateComparison := {
  statement_dates : list string;
  treaty_slip_dates : list string;
  ground_truth_dates : list string;
  matches : DateMatches;
  discrepancies : list string;
  match_percentage : float
}.

(** Members that several object types share ([variance_percentage],
    [variance], [match], [avg_similarity], ...) keep their names: each such
    type is the record [t] of a module of its own. [match] is written
    [match_]. *)

Module CashLossLimit.
Record t := {
  treaty_slip_amount : float;
  statement_surplus_amount : float;
  within_limits : bool;
  variance_percentage : float;
  risk_flag : bool
}.
End CashLossLimit.

Module Commissions.
Record t := {
  treaty_slip_commission : float;
  statement_commission : float;
  match_ : bool;
  variance_amount : float;
  variance_percentage : float
}.
End Commissions.

Module ClaimAmounts.
Record t := {
  total_claims_statement : float;
  total_claims_ground_truth : float;
  variance : float;
  variance_percentage : float;
  suspicious_patterns : list string
}.
End ClaimAmounts.

Record FinancialComparison := {
  cash_loss_limit : CashLossLimit.t;
  commissions : Commissions.t;
  claim_amounts : ClaimAmounts.t
}.

Module TotalClaimsComparison.
Record t := {
  statement_claims : float;
  ground_truth_claims : float;
  match_ : bool;
  variance : float;
  variance_percentage : float;
  missing_claims : list string;
  extra_claims : list string
}.
End TotalClaimsComparison.

Record DataIntegrity := {
  completeness_score : float;
  accuracy_score : float;
  consistency_score : float;
  reliability_rating : ReliabilityRating
}.

Record GroundTruthComparison := {
  total_claims_comparison : TotalClaimsComparison.t;
  data_integrity : DataIntegrity
}.

Record ReliabilityIndicators := {
  data_consistency : float;
  cross_reference_accuracy : float;
  financial_alignment : float;
  temporal_consistency : float
}.

Record VerificationStatus := {
  dates_verified : bool;
  amounts_verified : bool;
  commissions_verified : bool;
  claims_count_verified : bool
}.

Record ValidationMetrics := {
  trust_score : float;
  reliability_indicators : ReliabilityIndicators;
  verification_status : VerificationStatus
}.

Module DocumentGroundTruth.
Record t := {
  matches_found : float;
  avg_similarity : float;
  max_similarity : float
}.
End DocumentGroundTruth.

Record DocumentCompliance := {
  compliance_score : float;
  risk_level : string;
  risk_indicators : list string;
  doc_ground_truth_analysis : DocumentGroundTruth.t
}.

Module GroundTruthAnalysis.
Record t := {
  matches_count : float;
  avg_similarity : float;
  max_similarity : float
}.
End GroundTruthAnalysis.

(** The object literal the generator returns; every member is present in it
    (the members [types.ts] marks optional are absent only from reports that
    come from the backend, which are untyped objects below). *)
Record ComplianceAnalysis := {
  overall_compliance_score : float;
  overall_risk_level : string;
  pairing_confidence : float;
  statement_compliance : DocumentCompliance;
  treaty_slip_compliance : DocumentCompliance;
  ground_truth_analysis : GroundTruthAnalysis.t;
  date_comparison : DateComparison;
  financial_comparison : FinancialComparison;
  ground_truth_comparison : GroundTruthComparison;
  validation_metrics : ValidationMetrics
}.

(** ** The date computation (lines 26-32 of the generator)

    The three date arrays are constants of the generator's body; the
    computation over them is kept with the arrays as section variables, so
    that it can also be evaluated on other arrays. *)

(** [xs.includes(d)] on strings. *)
Definition includes (xs : list string) (d : string) : bool :=
  existsb (String.eqb d) xs.

Section DateMatching.
Variables statementDates treatyDates groundTruthDates : list string.

Definition statementGtMatches : nat :=
  length (List.filter (fun d => includes groundTruthDates d) statementDates).
Definition treatyGtMatches : nat :=
  length (List.filter (fun d => includes groundTruthDates d) treatyDates).
Definition statementTreatyMatches : nat :=
  length (List.filter (fun d => includes treatyDates d) statementDates).

(** [Math.max] of three array lengths. *)
Definition totalPossibleMatches : nat :=
  Nat.max (length statementDates)
          (Nat.max (length treatyDates) (length groundTruthDates)).

Definition matchPercentage : float :=
  ((Num.of_nat statementGtMatches + Num.of_nat treatyGtMatches
    + Num.of_nat statementTreatyMatches)
   / (Num.of_nat totalPossibleMatches * 3) * 100)%float.
End DateMatching.

(** ** The body of [generateMockComparisonData]

    The body reads its arguments only through the two tests on
    [classification], so its constants are definitions over the results
    [isHighRisk] and [isMediumRisk] of those tests. *)

Section MockBody.
Variables isHighRisk isMediumRisk : bool.
Local Open Scope float_scope.

Definition statementDates : list string :=
  ["2024-09-15"; "2024-09-16"; "2024-09-17"]%string.
Definition treatyDates : list string :=
  ["2024-09-15"; "2024-09-16";
   if isHighRisk then "2024-09-20" else "2024-09-17"]%string.
Definition groundTruthDates : list string :=
  ["2024-09-15"; "2024-09-16"; "2024-09-17"]%string.

Definition mock_date_comparison : DateComparison := {|
  statement_dates := statementDates;
  treaty_slip_dates := treatyDates;
  ground_truth_dates := groundTruthDates;
  matches := {|
    statement_gt_matches :=
      Num.of_nat (statementGtMatches statementDates groundTruthDates);
    treaty_gt_matches :=
      Num.of_nat (treatyGtMatches treatyDates groundTruthDates);
    statement_treaty_matches :=
      Num.of_nat (statementTreatyMatches statementDates treatyDates)
  |};
  discrepancies :=
    if isHighRisk then
      ["Treaty slip date 2024-09-20 not found in ground truth data";
       "Statement processing date differs from treaty slip by 3 days"]%string
    else [];
  match_percentage :=
    matchPercentage statementDates treatyDates groundTruthDates
|}.

(** Financial comparison data. *)
Definition treatySlipAmount : float := if isHighRisk then 2800000 else 1200000.
Definition statementSurplus : float := 2500000.
Definition withinLimits : bool := treatySlipAmount <=? statementSurplus.
Definition variance : float :=
  (treatySlipAmount - statementSurplus) / statementSurplus * 100.

Definition treatyCommission : float := if isHighRisk then 125000 else 120000.
Definition statementCommission : float := 120000.
Definition commissionMatch : bool :=
  Num.Math_abs (treatyCommission - statementCommission) <? 5000.
Definition commissionVariance : float := treatyCommission - statementCommission.
Definition commissionVariancePercentage : float :=
  commissionVariance / statementCommission * 100.

Definition mock_financial_comparison : FinancialComparison := {|
  cash_loss_limit := {|
    CashLossLimit.treaty_slip_amount := treatySlipAmount;
    CashLossLimit.statement_surplus_amount := statementSurplus;
    CashLossLimit.within_limits := withinLimits;
    CashLossLimit.variance_percentage := Num.Math_abs variance;
    CashLossLimit.risk_flag := negb withinLimits
  |};
  commissions := {|
    Commissions.treaty_slip_commission := treatyCommission;
    Commissions.statement_commission := statementCommission;
    Commissions.match_ := commissionMatch;
    Commissions.variance_amount := commissionVariance;
    Commissions.variance_percentage := Num.Math_abs commissionVariancePercentage
  |};
  claim_amounts := {|
    ClaimAmounts.total_claims_statement := if isHighRisk then 4200000 else 3800000;
    ClaimAmounts.total_claims_ground_truth := 3800000;
    ClaimAmounts.variance := if isHighRisk then 400000 else 0;
    ClaimAmounts.variance_percentage := if isHighRisk then 10.5 else 0;
    ClaimAmounts.suspicious_patterns :=
      if isHighRisk then
        ["Multiple claims submitted within 48 hours";
         "Claim amounts follow suspicious round number pattern";
         "Similar incident descriptions across multiple claims"]%string
      else []
  |}
|}.

(** Ground truth comparison. *)
Definition statementClaims : float := if isHighRisk then 15 else 12.
Definition groundTruthClaims : float := 12.
Definition claimsMatch : bool := statementClaims =? groundTruthClaims.
Definition claimsVariance : float := statementClaims - groundTruthClaims.
Definition claimsVariancePercentage : float :=
  claimsVariance / groundTruthClaims * 100.

Definition mock_ground_truth_comparison : GroundTruthComparison := {|
  total_claims_comparison := {|
    TotalClaimsComparison.statement_claims := statementClaims;
    TotalClaimsComparison.ground_truth_claims := groundTruthClaims;
    TotalClaimsComparison.match_ := claimsMatch;
    TotalClaimsComparison.variance := claimsVariance;
    TotalClaimsComparison.variance_percentage := claimsVariancePercentage;
    TotalClaimsComparison.missing_claims := if isHighRisk then [] else [];
    TotalClaimsComparison.extra_claims :=
      if isHighRisk then
        ["Claim #2024-0918-001 - Not found in ground truth";
         "Claim #2024-0918-002 - Duplicate entry detected";
         "Claim #2024-0919-001 - Suspicious timing pattern"]%string
      else []
  |};
  data_integrity := {|
    completeness_score := if isHighRisk then 75 else 95;
    accuracy_score := if isHighRisk then 68 else 92;
    consistency_score := if isHighRisk then 72 else 88;
    reliability_rating :=
      if isHighRisk then LOW else if isMediumRisk then MEDIUM else HIGH
  |}
|}.

(** Validation metrics. *)
Definition mock_validation_metrics : ValidationMetrics := {|
  trust_score := if isHighRisk then 45 else if isMediumRisk then 72 else 89;
  reliability_indicators := {|
    data_consistency := if isHighRisk then 60 else if isMediumRisk then 75 else 90;
    cross_reference_accuracy :=
      if isHighRisk then 55 else if isMediumRisk then 78 else 88;
    financial_alignment := if isHighRisk then 40 else if isMediumRisk then 70 else 92;
    temporal_consistency :=
      matchPercentage statementDates treatyDates groundTruthDates
  |};
  verification_status := {|
    dates_verified :=
      Num.gt (matchPercentage statementDates treatyDates groundTruthDates) 80;
    amounts_verified :=
      negb (CashLossLimit.risk_flag (cash_loss_limit mock_financial_comparison));
    commissions_verified :=
      Commissions.match_ (commissions mock_financial_comparison);
    claims_count_verified :=
      TotalClaimsComparison.match_
        (total_claims_comparison mock_ground_truth_comparison)
  |}
|}.

Definition riskLevel : string :=
  (if isHighRisk then "HIGH" else if isMediumRisk then "MEDIUM" else "LOW")%string.

(** The returned object literal. *)
Definition mockAnalysis : ComplianceAnalysis := {|
  overall_compliance_score := if isHighRisk then 35 else if isMediumRisk then 65 else 85;
  overall_risk_level := riskLevel;
  pairing_confidence := if isHighRisk then 0.6 else if isMediumRisk then 0.75 else 0.9;
  statement_compliance := {|
    compliance_score := if isHighRisk then 40 else if isMediumRisk then 70 else 88;
    risk_level := riskLevel;
    risk_indicators :=
      if isHighRisk then
        ["Cash loss limit exceeded";
         "Commission discrepancies detected";
         "Date inconsistencies found"]%string
      else [];
    doc_ground_truth_analysis := {|
      DocumentGroundTruth.matches_found :=
        Num.of_nat (statementGtMatches statementDates groundTruthDates);
      DocumentGroundTruth.avg_similarity := if isHighRisk then 0.65 else 0.85;
      DocumentGroundTruth.max_similarity := if isHighRisk then 0.78 else 0.92
    |}
  |};
  treaty_slip_compliance := {|
    compliance_score := if isHighRisk then 38 else if isMediumRisk then 68 else 86;
    risk_level := riskLevel;
    risk_indicators :=
      if isHighRisk then
        ["Amount exceeds surplus limits";
         "Date discrepancies with ground truth"]%string
      else [];
    doc_ground_truth_analysis := {|
      DocumentGroundTruth.matches_found :=
        Num.of_nat (treatyGtMatches treatyDates groundTruthDates);
      DocumentGroundTruth.avg_similarity := if isHighRisk then 0.62 else 0.83;
      DocumentGroundTruth.max_similarity := if isHighRisk then 0.75 else 0.90
    |}
  |};
  ground_truth_analysis := {|
    GroundTruthAnalysis.matches_count :=
      Num.Math_min
        (Num.of_nat (statementGtMatches statementDates groundTruthDates))
        (Num.of_nat (treatyGtMatches treatyDates groundTruthDates));
    GroundTruthAnalysis.avg_similarity := if isHighRisk then 0.63 else 0.84;
    GroundTruthAnalysis.max_similarity := if isHighRisk then 0.76 else 0.91
  |};
  date_comparison := mock_date_comparison;
  financial_comparison := mock_financial_comparison;
  ground_truth_comparison := mock_ground_truth_comparison;
  validation_metrics := mock_validation_metrics
|}.
End MockBody.

(** [generateMockComparisonData(reportId, classification)]. The argument
    [reportId] is not read; [baseDate] is a constant the body never uses. *)
Definition generateMockComparisonData (reportId classification : string)
  : ComplianceAnalysis :=
  mockAnalysis (String.eqb classification "POTENTIALLY FRAUDULENT")
               (String.eqb classification "INSUFFICIENT EVIDENCE").


(** ** Untyped values

    [enhanceReportWithComparison] takes [any]: its arguments are JavaScript
    values. Objects are finite maps from member names to values (the order
    of members is not modelled). A [string] holds the UTF-8 bytes of
    the JavaScript string, a lone surrogate in the three-byte form of its
    code unit; each JavaScript string has one such byte sequence, so equal
    strings are equal byte sequences. *)

Inductive JSValue :=
| JUndefined
| JNull
| JBool (b : bool)
| JNum (x : float)
| JStr (s : string)
| JArr (elements : list JSValue)
| JObj (members : gmap string JSValue).

(** The outcome of an expression: a value, or a raised [TypeError]. *)
Inductive Completion (A : Type) :=
| Normal (a : A)
| TypeError.
Arguments Normal {A} a.
Arguments TypeError {A}.

#[global] Instance Completion_bind : MBind Completion := λ A B k c,
  match c with
  | Normal a => k a
  | TypeError => TypeError
  end.

Module JS.

(** An object literal. *)
Definition object (members : list (string * JSValue)) : JSValue :=
  JObj (list_to_map members).

Definition strings (l : list string) : JSValue := JArr (JStr <$> l).

(** ToBoolean. *)
Definition truthy (v : JSValue) : bool :=
  match v with
  | JUndefined | JNull => false
  | JBool b => b
  | JNum x => negb (PrimFloat.is_zero x || PrimFloat.is_nan x)
  | JStr s => negb (String.eqb s "")
  | JArr _ | JObj _ => true
  end.

(** [v === 'literal']. *)
Definition strict_eq_str (v : JSValue) (literal : string) : bool :=
  match v with
  | JStr s => String.eqb s literal
  | _ => false
  end.

(** [o.name] on an object. *)
Definition member (o : gmap string JSValue) (name : string) : JSValue :=
  default JUndefined (o !! name).

(** [v.name] on any value, for the member names this file reads ([status],
    [data] and the four comparison members), none of which is an index,
    [length] or a member of a built-in prototype: reading from [undefined]
    or [null] raises, an object gives the member or [undefined], any other
    value gives [undefined]. *)
Definition get (v : JSValue) (name : string) : Completion JSValue :=
  match v with
  | JUndefined | JNull => TypeError
  | JObj o => Normal (member o name)
  | _ => Normal JUndefined
  end.

(** The string of one UTF-16 code unit [u] at or above 0x800, in three
    bytes. *)
Definition unit3 (u : N) : string :=
  String (ascii_of_N (224 + u / 4096))
    (String (ascii_of_N (128 + (u / 64) mod 64))
       (String (ascii_of_N (128 + u mod 64)) EmptyString)).

(** The UTF-16 code units of a string, each as the string of that one unit
    (what [s[i]] is): a character of one, two or three bytes is one unit; a
    character of four bytes, beyond 0xFFFF, is two units, its high and low
    surrogates. Bytes that begin no character, which the bytes of a
    JavaScript string never contain, count as a unit each. *)
Fixpoint characters (s : string) : list JSValue :=
  match s with
  | EmptyString => []
  | String b1 rest =>
      let n1 := N_of_ascii b1 in
      let single := JStr (String b1 EmptyString) :: characters rest in
      if (n1 <? 192)%N then single
      else if (n1 <? 224)%N then
        match rest with
        | String b2 rest2 =>
            JStr (String b1 (String b2 EmptyString)) :: characters rest2
        | _ => single
        end
      else if (n1 <? 240)%N then
        match rest with
        | String b2 (String b3 rest3) =>
            JStr (String b1 (String b2 (String b3 EmptyString)))
            :: characters rest3
        | _ => single
        end
      else
        match rest with
        | String b2 (String b3 (String b4 rest4)) =>
            let v := ((n1 mod 8) * 262144 + (N_of_ascii b2 mod 64) * 4096
                      + (N_of_ascii b3 mod 64) * 64 + N_of_ascii b4 mod 64
                      - 65536)%N in
            JStr (unit3 (55296 + v / 1024))
            :: JStr (unit3 (56320 + v mod 1024)) :: characters rest4
        | _ => single
        end
  end.

Definition indexed (elements : list JSValue) : gmap string JSValue :=
  list_to_map (imap (fun i x => (pretty i, x)) elements).

(** The members [{...v}] copies: the own enumerable members of an object,
    the indexed elements of an array, the indexed code units of a string,
    nothing otherwise. *)
Definition spread (v : JSValue) : gmap string JSValue :=
  match v with
  | JObj o => o
  | JArr elements => indexed elements
  | JStr s => indexed (characters s)
  | _ => ∅
  end.

End JS.

(** ** The generated analysis as a value *)

Module Encode.

Definition of_rating (r : ReliabilityRating) : JSValue :=
  JStr match r with HIGH => "HIGH" | MEDIUM => "MEDIUM" | LOW => "LOW" end.

Definition of_date_comparison (d : DateComparison) : JSValue :=
  JS.object [
    ("statement_dates", JS.strings (statement_dates d));
    ("treaty_slip_dates", JS.strings (treaty_slip_dates d));
    ("ground_truth_dates", JS.strings (ground_truth_dates d));
    ("matches", JS.object [
       ("statement_gt_matches", JNum (statement_gt_matches (matches d)));
       ("treaty_gt_matches", JNum (treaty_gt_matches (matches d)));
       ("statement_treaty_matches", JNum (statement_treaty_matches (matches d)))]);
    ("discrepancies", JS.strings (discrepancies d));
    ("match_percentage", JNum (match_percentage d))].

Definition of_cash_loss_limit (c : CashLossLimit.t) : JSValue :=
  JS.object [
    ("treaty_slip_amount", JNum (CashLossLimit.treaty_slip_amount c));
    ("statement_surplus_amount", JNum (CashLossLimit.statement_surplus_amount c));
    ("within_limits", JBool (CashLossLimit.within_limits c));
    ("variance_percentage", JNum (CashLossLimit.variance_percentage c));
    ("risk_flag", JBool (CashLossLimit.risk_flag c))].

Definition of_commissions (c : Commissions.t) : JSValue :=
  JS.object [
    ("treaty_slip_commission", JNum (Commissions.treaty_slip_commission c));
    ("statement_commission", JNum (Commissions.statement_commission c));
    ("match", JBool (Commissions.match_ c));
    ("variance_amount", JNum (Commissions.variance_amount c));
    ("variance_percentage", JNum (Commissions.variance_percentage c))].

Definition of_claim_amounts (c : ClaimAmounts.t) : JSValue :=
  JS.object [
    ("total_claims_statement", JNum (ClaimAmounts.total_claims_statement c));
    ("total_claims_ground_truth", JNum (ClaimAmounts.total_claims_ground_truth c));
    ("variance", JNum (ClaimAmounts.variance c));
    ("variance_percentage", JNum (ClaimAmounts.variance_percentage c));
    ("suspicious_patterns", JS.strings (ClaimAmounts.suspicious_patterns c))].

Definition of_financial_comparison (f : FinancialComparison) : JSValue :=
  JS.object [
    ("cash_loss_limit", of_cash_loss_limit (cash_loss_limit f));
    ("commissions", of_commissions (commissions f));
    ("claim_amounts", of_claim_amounts (claim_amounts f))].

Definition of_total_claims_comparison (c : TotalClaimsComparison.t) : JSValue :=
  JS.object [
    ("statement_claims", JNum (TotalClaimsComparison.statement_claims c));
    ("ground_truth_claims", JNum (TotalClaimsComparison.ground_truth_claims c));
    ("match", JBool (TotalClaimsComparison.match_ c));
    ("variance", JNum (TotalClaimsComparison.variance c));
    ("variance_percentage", JNum (TotalClaimsComparison.variance_percentage c));
    ("missing_claims", JS.strings (TotalClaimsComparison.missing_claims c));
    ("extra_claims", JS.strings (TotalClaimsComparison.extra_claims c))].

Definition of_data_integrity (d : DataIntegrity) : JSValue :=
  JS.object [
    ("completeness_score", JNum (completeness_score d));
    ("accuracy_score", JNum (accuracy_score d));
    ("consistency_score", JNum (consistency_score d));
    ("reliability_rating", of_rating (reliability_rating d))].

Definition of_ground_truth_comparison (g : GroundTruthComparison) : JSValue :=
  JS.object [
    ("total_claims_comparison",
     of_total_claims_comparison (total_claims_comparison g));
    ("data_integrity", of_data_integrity (data_integrity g))].

Definition of_validation_metrics (v : ValidationMetrics) : JSValue :=
  JS.object [
    ("trust_score", JNum (trust_score v));
    ("reliability_indicators", JS.object [
       ("data_consistency", JNum (data_consistency (reliability_indicators v)));
       ("cross_reference_accuracy",
        JNum (cross_reference_accuracy (reliability_indicators v)));
       ("financial_alignment", JNum (financial_alignment (reliability_indicators v)));
       ("temporal_consistency",
        JNum (temporal_consistency (reliability_indicators v)))]);
    ("verification_status", JS.object [
       ("dates_verified", JBool (dates_verified (verification_status v)));
       ("amounts_verified", JBool (amounts_verified (verification_status v)));
       ("commissions_verified", JBool (commissions_verified (verification_status v)));
       ("claims_count_verified",
        JBool (claims_count_verified (verification_status v)))])].

Definition of_document_compliance (d : DocumentCompliance) : JSValue :=
  JS.object [
    ("compliance_score", JNum (compliance_score d));
    ("risk_level", JStr (risk_level d));
    ("risk_indicators", JS.strings (risk_indicators d));
    ("ground_truth_analysis", JS.object [
       ("matches_found",
        JNum (DocumentGroundTruth.matches_found (doc_ground_truth_analysis d)));
       ("avg_similarity",
        JNum (DocumentGroundTruth.avg_similarity (doc_ground_truth_analysis d)));
       ("max_similarity",
        JNum (DocumentGroundTruth.max_similarity (doc_ground_truth_analysis d)))])].

Definition of_compliance_analysis (a : ComplianceAnalysis) : JSValue :=
  JS.object [
    ("overall_compliance_score", JNum (overall_compliance_score a));
    ("overall_risk_level", JStr (overall_risk_level a));
    ("pairing_confidence", JNum (pairing_confidence a));
    ("statement_compliance", of_document_compliance (statement_compliance a));
    ("treaty_slip_compliance", of_document_compliance (treaty_slip_compliance a));
    ("ground_truth_analysis", JS.object [
       ("matches_count",
        JNum (GroundTruthAnalysis.matches_count (ground_truth_analysis a)));
       ("avg_similarity",
        JNum (GroundTruthAnalysis.avg_similarity (ground_truth_analysis a)));
       ("max_similarity",
        JNum (GroundTruthAnalysis.max_similarity (ground_truth_analysis a)))]);
    ("date_comparison", of_date_comparison (date_comparison a));
    ("financial_comparison", of_financial_comparison (financial_comparison a));
    ("ground_truth_comparison",
     of_ground_truth_comparison (ground_truth_comparison a));
    ("validation_metrics", of_validation_metrics (validation_metrics a))].

End Encode.


(** ** [enhanceReportWithComparison]

    The report is a plain data object (no accessors, not frozen) that the
    function updates in place and returns; the optional second argument is
    any value ([JUndefined] when it is left out). *)

(** The generator called from untyped code, on [report.id] and
    [report.classification] as they are: [===] against a string literal holds
    for the equal string only. *)
Definition generateMockComparisonData_untyped (reportId classification : JSValue)
  : ComplianceAnalysis :=
  mockAnalysis (JS.strict_eq_str classification "POTENTIALLY FRAUDULENT")
               (JS.strict_eq_str classification "INSUFFICIENT EVIDENCE").

(** [{ ...base, date_comparison: dc, financial_comparison: fc,
       ground_truth_comparison: gc, validation_metrics: vm }]. *)
Definition withComparison (base : JSValue) (dc fc gc vm : JSValue) : JSValue :=
  JObj (<["validation_metrics" := vm]>
        (<["ground_truth_comparison" := gc]>
         (<["financial_comparison" := fc]>
          (<["date_comparison" := dc]> (JS.spread base))))).

(** [realComparisonData && realComparisonData.status === 'success']. *)
Definition isSuccess (realComparisonData : JSValue) : Completion bool :=
  if JS.truthy realComparisonData then
    status ← JS.get realComparisonData "status";
    Normal (JS.strict_eq_str status "success")
  else Normal false.

(** The value the function assigns to [report.compliance_analysis]. *)
Definition enhancedAnalysis (report : gmap string JSValue)
    (realComparisonData : JSValue) : Completion JSValue :=
  success ← isSuccess realComparisonData;
  if success : bool then
    realData ← JS.get realComparisonData "data";
    dc ← JS.get realData "date_comparison";
    fc ← JS.get realData "financial_comparison";
    gc ← JS.get realData "ground_truth_comparison";
    vm ← JS.get realData "validation_metrics";
    Normal (withComparison (JS.member report "compliance_analysis") dc fc gc vm)
  else
    let mockData :=
      generateMockComparisonData_untyped (JS.member report "id")
                                         (JS.member report "classification") in
    if negb (JS.truthy (JS.member report "compliance_analysis")) then
      Normal (Encode.of_compliance_analysis mockData)
    else
      Normal (withComparison (JS.member report "compliance_analysis")
                (Encode.of_date_comparison (date_comparison mockData))
                (Encode.of_financial_comparison (financial_comparison mockData))
                (Encode.of_ground_truth_comparison (ground_truth_comparison mockData))
                (Encode.of_validation_metrics (validation_metrics mockData))).

(** How a call ends, with the members of the report object at that point:
    it returns the report, or a [TypeError] escapes. *)
Inductive Outcome :=
| Returns (report : gmap string JSValue)
| Throws (report : gmap string JSValue).

Definition report_after (o : Outcome) : gmap string JSValue :=
  match o with
  | Returns report | Throws report => report
  end.

(** Every read that can raise comes before the one assignment, so a raised
    error leaves the report as it was. *)
Definition enhanceReportWithComparison (report : gmap string JSValue)
    (realComparisonData : JSValue) : Outcome :=
  match enhancedAnalysis report realComparisonData with
  | Normal analysis => Returns (<["compliance_analysis" := analysis]> report)
  | TypeError => Throws report
  end.

(** ** The rules as the specification words them

    These follow the specification's text, not the source; the theorems
    compare the generator with them. *)

Module Spec.

Definition verification_count (v : VerificationStatus) : nat :=
  length (List.filter id [dates_verified v; amounts_verified v;
                          commissions_verified v; claims_count_verified v]).

Definition base_trust_score (v : VerificationStatus) : float :=
  (Num.of_nat (verification_count v) / 4 * 100)%float.

Definition compliance_adjustment (statement_score treaty_score : float) : float :=
  (0.3 * statement_score + 0.3 * treaty_score)%float.

(** [min(100, (base_trust_score + compliance_adjustment) / 1.6)]. *)
Definition trust_score_formula (v : VerificationStatus)
    (statement_score treaty_score : float) : float :=
  Num.Math_min 100
    ((base_trust_score v + compliance_adjustment statement_score treaty_score)
     / 1.6)%float.

(** The formula on the booleans and the two per-document scores of one
    generated record. *)
Definition trust_score_of (a : ComplianceAnalysis) : float :=
  trust_score_formula (verification_status (validation_metrics a))
    (compliance_score (statement_compliance a))
    (compliance_score (treaty_slip_compliance a)).

(** HIGH when the mean of the three scores is at least 90, MEDIUM when at
    least 70, LOW otherwise. *)
Definition rating_of_mean (completeness accuracy consistency : float)
  : ReliabilityRating :=
  let mean := ((completeness + accuracy + consistency) / 3)%float in
  if Num.ge mean 90 then HIGH else if Num.ge mean 70 then MEDIUM else LOW.

Definition rating_of (d : DataIntegrity) : ReliabilityRating :=
  rating_of_mean (completeness_score d) (accuracy_score d) (consistency_score d).

(** The signed cash-loss variance
    [(treaty_slip_amount - statement_surplus_amount) / statement_surplus_amount * 100]. *)
Definition signed_variance_percentage (c : CashLossLimit.t) : float :=
  ((CashLossLimit.treaty_slip_amount c - CashLossLimit.statement_surplus_amount c)
   / CashLossLimit.statement_surplus_amount c * 100)%float.

End Spec.


(** ** The API service ([services/api.ts])

    [ApiService.request] builds the fetch configuration from the caller's
    options, awaits [fetch] and the JSON body, and turns every failure into
    an error response. The network is the environment: what [fetch] and
    [response.json()] do is an argument of the model. *)

Module Api.

(** [{ ...earlier, ...later }]: a later member replaces an earlier one of
    the same name. *)
Definition extend (earlier later : gmap string JSValue) : gmap string JSValue :=
  later ∪ earlier.

(** The [config] of [request]:
    [{ credentials: 'include',
       headers: { 'Content-Type': 'application/json', ...options.headers },
       ...options }]. *)
Definition requestConfig (options : gmap string JSValue) : gmap string JSValue :=
  extend
    (<["headers" :=
        JObj (extend {["Content-Type" := JStr "application/json"]}
                     (JS.spread (JS.member options "headers")))]>
       {["credentials" := JStr "include"]})
    options.

(** A thrown value, as [error instanceof Error ? error.message : ...] sees
    it: an [Error] with its message, or something else. *)
Inductive Thrown :=
| AnError (message : string)
| NotAnError.

(** What [await response.json()] does. *)
Inductive JsonOutcome :=
| JsonValue (data : JSValue)
| JsonFails (error : Thrown).

(** What [await fetch(url, config)] does: it rejects, or resolves to a
    response with its [ok] flag, its [status] and its body. *)
Inductive FetchOutcome :=
| FetchFails (error : Thrown)
| Responds (ok : bool) (status : nat) (body : JsonOutcome).

(** The object the [catch] block returns. *)
Definition errorResponse (error : Thrown) : JSValue :=
  JS.object [
    ("status", JStr "error");
    ("message", JStr match error with
                     | AnError message => message
                     | NotAnError => "Unknown error occurred"
                     end)].

(** The value the promise of [request] resolves to. *)
Definition request (outcome : FetchOutcome) : JSValue :=
  match outcome with
  | FetchFails error => errorResponse error
  | Responds ok status body =>
      if negb ok then
        errorResponse (AnError ("HTTP error! status: " +:+ pretty status))
      else
        match body with
        | JsonValue data => data
        | JsonFails error => errorResponse error
        end
  end.

End Api.

(** ** The ticket feed ([components/TicketFeed.tsx])

    The helpers of the component that calls [enhanceReportWithComparison]
    on every report. Fraud scores are integers far below 2^53, where
    binary64 arithmetic is exact: they are modelled in [Z]. *)

Module TicketFeed.

(** The state cells [fetchReports] writes. *)
Record FeedState := {
  reports : JSValue;
  isLoading : bool;
  error : JSValue
}.

(** The body of the [try] block of [fetchReports], from the response of
    [apiService.getReports()] on. *)
Definition fetchReports_try (response : JSValue) (st : FeedState)
  : Completion FeedState :=
  status ← JS.get response "status";
  accepted ← (if JS.strict_eq_str status "success"
              then data ← JS.get response "data"; Normal (JS.truthy data)
              else Normal false);
  if accepted : bool then
    data ← JS.get response "data";
    Normal {| reports := data; isLoading := isLoading st; error := error st |}
  else
    message ← JS.get response "message";
    Normal {| reports := reports st; isLoading := isLoading st;
              error := if JS.truthy message then message
                       else JStr "Failed to fetch reports" |}.

(** [fetchReports]: the state after the call, given what [fetch] did. *)
Definition fetchReports (outcome : Api.FetchOutcome) (st : FeedState) : FeedState :=
  let started := {| reports := reports st; isLoading := true; error := JNull |} in
  let tried :=
    match fetchReports_try (Api.request outcome) started with
    | Normal st' => st'
    | TypeError =>
        {| reports := reports started; isLoading := isLoading started;
           error := JStr "Network error. Please try again." |}
    end in
  {| reports := reports tried; isLoading := false; error := error tried |}.

Definition getStatusFromClassification (classification : string) : string :=
  if String.eqb classification "VALID" then "Auto Approved"
  else if String.eqb classification "POTENTIALLY FRAUDULENT" then "Flagged"
  else if String.eqb classification "INSUFFICIENT EVIDENCE" then "Pending Review"
  else "Pending Review".

Definition getFraudScore (classification : string) (indicators : list string) : Z :=
  if String.eqb classification "POTENTIALLY FRAUDULENT" then
    Z.min (80 + Z.of_nat (length indicators) * 5) 100
  else if String.eqb classification "INSUFFICIENT EVIDENCE" then
    Z.min (40 + Z.of_nat (length indicators) * 10) 70
  else
    Z.max 5 (20 - Z.of_nat (length indicators) * 5).

Definition getFraudScoreColor (score : Z) : string :=
  if (80 <=? score)%Z then "text-red-600"
  else if (50 <=? score)%Z then "text-yellow-600"
  else "text-green-600".

(** The ticket id of a report: [`#${report.id}`] on a string id. *)
Definition ticketId (reportId : string) : string := "#" +:+ reportId.

(** [s.replace('#', '')]: a string pattern replaces its first occurrence
    only. *)
Fixpoint removeFirstHash (s : string) : string :=
  match s with
  | EmptyString => EmptyString
  | String c rest =>
      if Ascii.eqb c "#"%char then rest else String c (removeFirstHash rest)
  end.

(** The reports [handleCloseTicket(ticketId)] leaves:
    [prevReports.filter(report => report.id !== reportId)] with
    [reportId = ticketId.replace('#', '')]. *)
Definition handleCloseTicket (ticketId : string)
    (prevReports : list (gmap string JSValue)) : list (gmap string JSValue) :=
  let reportId := removeFirstHash ticketId in
  List.filter
    (fun report => negb (JS.strict_eq_str (JS.member report "id") reportId))
    prevReports.

End TicketFeed.


(** ** Names used in the statements *)

(** The four members [enhanceReportWithComparison] sets. *)
Definition comparisonMembers : list string :=
  ["date_comparison"; "financial_comparison"; "ground_truth_comparison";
   "validation_metrics"].

(** The state [fetchReports] leaves when it ends showing [message]: the
    reports as they were, the loading flag off. *)
Definition failed (st : TicketFeed.FeedState) (message : string)
  : TicketFeed.FeedState :=
  {| TicketFeed.reports := TicketFeed.reports st;
     TicketFeed.isLoading := false;
     TicketFeed.error := JStr message |}.

(** * Properties *)

(** Case analysis on the two tests the generator makes on [classification],
    then evaluation. *)
Ltac by_classification :=
  intros;
  repeat match goal with x := _ |- _ => subst x end;
  unfold generateMockComparisonData;
  repeat match goal with
         | |- context [String.eqb ?c ?lit] => destruct (String.eqb c lit)
         end;
  vm_compute; repeat split; try reflexivity.

(** ** Date matching *)

Section DateMatchingFacts.
Variables first second : list string.

Lemma statementGtMatches_nil : statementGtMatches [] second = 0.
Proof. reflexivity. Qed.

Lemma statementGtMatches_cons (d : string) :
  statementGtMatches (d :: first) second =
  (if includes second d then 1 else 0) + statementGtMatches first second.
Proof.
  unfold statementGtMatches; simpl.
  destruct (includes second d); reflexivity.
Qed.

Lemma statementGtMatches_le_length :
  statementGtMatches first second ≤ length first.
Proof. unfold statementGtMatches. apply List.filter_length_le. Qed.

Lemma includes_spec (d : string) : includes second d = true ↔ d ∈ second.
Proof.
  unfold includes. rewrite existsb_exists. split.
  - intros (x & Hin & Heq). apply String.eqb_eq in Heq as ->.
    by apply list_elem_of_In.
  - intros Hin. exists d. split; [by apply list_elem_of_In | apply String.eqb_refl].
Qed.

End DateMatchingFacts.

(** The three pairwise counts are one function of the pair of arrays. *)
Lemma pairwise_counts_same (xs ys : list string) :
  treatyGtMatches xs ys = statementGtMatches xs ys
  ∧ statementTreatyMatches xs ys = statementGtMatches xs ys.
Proof. split; reflexivity. Qed.

(** ** C1: trust score *)

(** C1, as stated, fails: for classification ["VALID"] the generated trust
    score is 89, while the formula
    [min(100, (base_trust_score + compliance_adjustment) / 1.6)] on the
    verification booleans and the two compliance scores of the same record
    gives 95.125 (up to rounding), and the two numbers are not equal. *)
Lemma C1_trust_score_is_not_the_formula :
  let a := generateMockComparisonData "RPT-001" "VALID" in
  trust_score (validation_metrics a) = 89%float
  ∧ Spec.trust_score_of a = 95.124999999999986%float
  ∧ PrimFloat.eqb (trust_score (validation_metrics a)) (Spec.trust_score_of a) = false.
Proof. vm_compute. repeat split; reflexivity. Qed.

(** C1, amended: for every classification the trust score is a constant
    selected by the classification (45 for ["POTENTIALLY FRAUDULENT"], 72 for
    ["INSUFFICIENT EVIDENCE"], 89 otherwise). It is never the value of the
    formula on the same record, which is 14.625, 88.375 and 95.125
    respectively (up to rounding). The formula itself, at four true booleans
    and scores 88 and 83, gives 94.5625, shown as 94.56. *)
Theorem C1_trust_score_selected_by_classification :
  ∀ reportId classification : string,
    let a := generateMockComparisonData reportId classification in
    let high := String.eqb classification "POTENTIALLY FRAUDULENT" in
    let medium := String.eqb classification "INSUFFICIENT EVIDENCE" in
    trust_score (validation_metrics a) =
      (if high then 45 else if medium then 72 else 89)%float
    ∧ Spec.trust_score_of a =
      (if high then 14.624999999999998
       else if medium then 88.375 else 95.124999999999986)%float
    ∧ PrimFloat.eqb (trust_score (validation_metrics a)) (Spec.trust_score_of a)
      = false
    ∧ Spec.trust_score_formula
        {| dates_verified := true; amounts_verified := true;
           commissions_verified := true; claims_count_verified := true |}
        88 83 = 94.5625%float
    ∧ Num.shows_as 94.5625 94.56 = true.
Proof. by_classification. Qed.

(** ** C2: reliability rating *)

(** C2, as stated, fails: for classification ["POTENTIALLY FRAUDULENT"] the
    three scores are 75, 68 and 72, whose mean 71.67 is at least 70, so the
    mean rule gives MEDIUM; the generated rating is LOW. *)
Lemma C2_rating_is_not_the_mean_rule :
  let d := data_integrity (ground_truth_comparison
             (generateMockComparisonData "RPT-001" "POTENTIALLY FRAUDULENT")) in
  (completeness_score d, accuracy_score d, consistency_score d)
    = (75, 68, 72)%float
  ∧ Spec.rating_of d = MEDIUM
  ∧ reliability_rating d = LOW.
Proof. vm_compute. repeat split; reflexivity. Qed.

(** C2, amended: for every classification the rating is selected by the
    classification (LOW for ["POTENTIALLY FRAUDULENT"], MEDIUM for
    ["INSUFFICIENT EVIDENCE"], HIGH otherwise), not derived from the three
    scores; it agrees with the mean-of-three rule exactly when the
    classification is neither of the two labels. *)
Theorem C2_rating_selected_by_classification :
  ∀ reportId classification : string,
    let d := data_integrity (ground_truth_comparison
               (generateMockComparisonData reportId classification)) in
    let high := String.eqb classification "POTENTIALLY FRAUDULENT" in
    let medium := String.eqb classification "INSUFFICIENT EVIDENCE" in
    reliability_rating d = (if high then LOW else if medium then MEDIUM else HIGH)
    ∧ Spec.rating_of d = (if high then MEDIUM else HIGH)
    ∧ (reliability_rating d = Spec.rating_of d ↔ high = false ∧ medium = false).
Proof. by_classification; try (intros [? ?]); congruence. Qed.

(** The scores do not determine the rating: two generated records with the
    same three scores carry different ratings. *)
Lemma rating_not_a_function_of_scores :
  let d1 := data_integrity (ground_truth_comparison
              (generateMockComparisonData "RPT-001" "INSUFFICIENT EVIDENCE")) in
  let d2 := data_integrity (ground_truth_comparison
              (generateMockComparisonData "RPT-001" "VALID")) in
  completeness_score d1 = completeness_score d2
  ∧ accuracy_score d1 = accuracy_score d2
  ∧ consistency_score d1 = consistency_score d2
  ∧ reliability_rating d1 = MEDIUM ∧ reliability_rating d2 = HIGH.
Proof. vm_compute. repeat split; reflexivity. Qed.

(** ** Date sets of the generated records *)

(** In every generated record the three date arrays have three entries
    each, so [totalPossibleMatches] is 3, the denominator of the percentage
    is 9, and [match_percentage] is a number between 0 and 100: the
    generator never computes a percentage over empty date sets. *)
Lemma generated_date_sets_have_three_entries :
  ∀ reportId classification : string,
    let d := date_comparison (generateMockComparisonData reportId classification) in
    length (statement_dates d) = 3
    ∧ length (treaty_slip_dates d) = 3
    ∧ length (ground_truth_dates d) = 3
    ∧ totalPossibleMatches (statement_dates d) (treaty_slip_dates d)
        (ground_truth_dates d) = 3
    ∧ match_percentage d =
        matchPercentage (statement_dates d) (treaty_slip_dates d)
          (ground_truth_dates d)
    ∧ PrimFloat.is_nan (match_percentage d) = false
    ∧ PrimFloat.leb 0 (match_percentage d) = true
    ∧ PrimFloat.leb (match_percentage d) 100 = true.
Proof. by_classification. Qed.

(** The percentage expression of line 32 has no case for a zero
    denominator: with the arrays replaced by empty ones it would divide 0 by
    0. No call of the generator evaluates it there. *)
Example matchPercentage_of_empty_arrays :
  totalPossibleMatches [] [] [] = 0
  ∧ PrimFloat.is_nan (matchPercentage [] [] []) = true.
Proof. split; reflexivity. Qed.

(** ** C4: cash-loss variance *)

(** C4, as stated, fails: for classification ["VALID"] the treaty amount
    1,200,000 is strictly below the positive surplus 2,500,000, the signed
    variance is -52, and the generated [variance_percentage] is 52, which is
    not negative. *)
Lemma C4_variance_percentage_is_unsigned :
  let c := cash_loss_limit (financial_comparison
             (generateMockComparisonData "RPT-001" "VALID")) in
  PrimFloat.ltb 0 (CashLossLimit.statement_surplus_amount c) = true
  ∧ PrimFloat.ltb (CashLossLimit.treaty_slip_amount c)
      (CashLossLimit.statement_surplus_amount c) = true
  ∧ Spec.signed_variance_percentage c = (-52)%float
  ∧ CashLossLimit.variance_percentage c = 52%float
  ∧ PrimFloat.ltb (CashLossLimit.variance_percentage c) 0 = false.
Proof. vm_compute. repeat split; reflexivity. Qed.

(** C4, amended: for every generated cash-loss check the surplus is positive
    and [variance_percentage] is the absolute value of
    [(treaty_slip_amount - statement_surplus_amount) / statement_surplus_amount * 100];
    it is never negative (12 when the treaty amount exceeds the surplus, 52
    when it is below). *)
Theorem C4_variance_percentage_is_absolute_value :
  ∀ reportId classification : string,
    let c := cash_loss_limit (financial_comparison
               (generateMockComparisonData reportId classification)) in
    PrimFloat.ltb 0 (CashLossLimit.statement_surplus_amount c) = true
    ∧ CashLossLimit.variance_percentage c
      = Num.Math_abs (Spec.signed_variance_percentage c)
    ∧ PrimFloat.leb 0 (CashLossLimit.variance_percentage c) = true
    ∧ CashLossLimit.variance_percentage c
      = (if CashLossLimit.within_limits c then 52 else 12)%float.
Proof. by_classification. Qed.

(** ** C5: commission check at a difference of exactly 5000 *)

(** C5, as stated, fails: with treaty commission 125,000 and statement
    commission 120,000 (the record for ["POTENTIALLY FRAUDULENT"]) the
    generated [match] is false, not true. *)
Lemma C5_commission_match_is_false_at_5000 :
  let c := commissions (financial_comparison
             (generateMockComparisonData "RPT-001" "POTENTIALLY FRAUDULENT")) in
  Commissions.treaty_slip_commission c = 125000%float
  ∧ Commissions.statement_commission c = 120000%float
  ∧ Commissions.match_ c = false.
Proof. vm_compute. repeat split; reflexivity. Qed.

(** C5, amended: for treaty commission 125,000 and statement commission
    120,000 the commission check yields [match = false] (the rule is the
    strict [abs(variance_amount) < 5000], and the difference is exactly
    5000), [variance_amount = 5000] and [variance_percentage] =
    5000 / 120000 * 100, shown as 4.17. *)
Theorem C5_commission_check_at_boundary :
  ∀ reportId : string,
    let c := commissions (financial_comparison
               (generateMockComparisonData reportId "POTENTIALLY FRAUDULENT")) in
    Commissions.treaty_slip_commission c = 125000%float
    ∧ Commissions.statement_commission c = 120000%float
    ∧ Commissions.match_ c
      = PrimFloat.ltb (Num.Math_abs (Commissions.variance_amount c)) 5000
    ∧ Commissions.match_ c = false
    ∧ Commissions.variance_amount c = 5000%float
    ∧ Commissions.variance_percentage c = (5000 / 120000 * 100)%float
    ∧ Num.shows_as (Commissions.variance_percentage c) 4.17 = true.
Proof. intros. vm_compute. repeat split; reflexivity. Qed.

(** ** C6: the date scenario *)

(** C6: on the three date arrays of the scenario (those of the record for
    ["POTENTIALLY FRAUDULENT"]) the counts are 3, 2 and 2, the total is 3 and
    the percentage is (3+2+2)/(3*3)*100, shown as 77.78. Each pairwise count
    adds, for every entry of the first array, 1 when the entry occurs in the
    second array and 0 otherwise, so it never exceeds the length of the first
    array and repeated entries of the first array count separately. *)
Theorem C6_date_scenario :
  let statement := ["2024-09-15"; "2024-09-16"; "2024-09-17"] in
  let treaty := ["2024-09-15"; "2024-09-16"; "2024-09-20"] in
  let ground_truth := ["2024-09-15"; "2024-09-16"; "2024-09-17"] in
  (statementGtMatches statement ground_truth = 3
   ∧ treatyGtMatches treaty ground_truth = 2
   ∧ statementTreatyMatches statement treaty = 2
   ∧ totalPossibleMatches statement treaty ground_truth = 3
   ∧ matchPercentage statement treaty ground_truth
     = ((3 + 2 + 2) / (3 * 3) * 100)%float
   ∧ Num.shows_as (matchPercentage statement treaty ground_truth) 77.78 = true)
  ∧ (∀ reportId : string,
       let d := date_comparison
                  (generateMockComparisonData reportId "POTENTIALLY FRAUDULENT") in
       statement_dates d = statement
       ∧ treaty_slip_dates d = treaty
       ∧ ground_truth_dates d = ground_truth
       ∧ matches d = {| statement_gt_matches := 3; treaty_gt_matches := 2;
                        statement_treaty_matches := 2 |}
       ∧ match_percentage d = matchPercentage statement treaty ground_truth)
  ∧ (∀ (first second : list string) (d : string),
       statementGtMatches [] second = 0
       ∧ statementGtMatches (d :: first) second
         = (if includes second d then 1 else 0) + statementGtMatches first second
       ∧ (includes second d = true ↔ d ∈ second)
       ∧ statementGtMatches first second ≤ length first
       ∧ treatyGtMatches first second = statementGtMatches first second
       ∧ statementTreatyMatches first second = statementGtMatches first second).
Proof.
  split; [|split].
  - vm_compute. repeat split; reflexivity.
  - intros. vm_compute. repeat split; reflexivity.
  - intros first second d.
    pose proof (pairwise_counts_same first second) as [? ?].
    repeat split; auto using statementGtMatches_cons, statementGtMatches_le_length.
    + apply includes_spec.
    + apply includes_spec.
Qed.

(** Repeated entries of the first array count separately, and an entry
    counts once however often the second array repeats it. *)
Example repeated_dates_count :
  statementGtMatches ["2024-09-15"; "2024-09-15"]
                     ["2024-09-15"; "2024-09-15"; "2024-09-15"] = 2.
Proof. reflexivity. Qed.

(** ** C7: cash-loss limit flags *)

(** C7: in every generated cash-loss check, [within_limits] is the inclusive
    comparison [treaty_slip_amount <= statement_surplus_amount] of the two
    amounts of the same record, and [risk_flag] is its negation. *)
Theorem C7_within_limits_and_risk_flag :
  ∀ reportId classification : string,
    let c := cash_loss_limit (financial_comparison
               (generateMockComparisonData reportId classification)) in
    CashLossLimit.within_limits c
      = PrimFloat.leb (CashLossLimit.treaty_slip_amount c)
                      (CashLossLimit.statement_surplus_amount c)
    ∧ CashLossLimit.risk_flag c = negb (CashLossLimit.within_limits c).
Proof. intros. split; reflexivity. Qed.

(** The comparison is inclusive: a treaty amount equal to the surplus is
    within limits. *)
Example withinLimits_inclusive :
  PrimFloat.leb statementSurplus statementSurplus = true.
Proof. reflexivity. Qed.

(** ** C8: verification status *)

(** C8: in every generated record, [dates_verified] is
    [match_percentage > 80] of its date comparison, [amounts_verified] is the
    [within_limits] of its cash-loss check, [commissions_verified] is the
    [match] of its commission check and [claims_count_verified] is the
    [match] of its claims-count check. *)
Theorem C8_verification_status_derivation :
  ∀ reportId classification : string,
    let a := generateMockComparisonData reportId classification in
    let v := verification_status (validation_metrics a) in
    dates_verified v = Num.gt (match_percentage (date_comparison a)) 80
    ∧ amounts_verified v
      = CashLossLimit.within_limits (cash_loss_limit (financial_comparison a))
    ∧ commissions_verified v
      = Commissions.match_ (commissions (financial_comparison a))
    ∧ claims_count_verified v
      = TotalClaimsComparison.match_
          (total_claims_comparison (ground_truth_comparison a)).
Proof.
  intros. subst v a. unfold generateMockComparisonData. cbn.
  repeat split. apply negb_involutive.
Qed.

(** ** C9: the report identifier is not read *)

(** C9: for every classification and any two report identifiers the
    generator returns the same analysis. *)
Theorem C9_reportId_noninterference :
  ∀ classification reportId1 reportId2 : string,
    generateMockComparisonData reportId1 classification
    = generateMockComparisonData reportId2 classification.
Proof. reflexivity. Qed.

(** The same holds for the call from untyped code, and the typed call is the
    untyped one on a string. *)
Lemma untyped_reportId_noninterference (classification id1 id2 : JSValue) :
  generateMockComparisonData_untyped id1 classification
  = generateMockComparisonData_untyped id2 classification.
Proof. reflexivity. Qed.

Lemma untyped_on_string (reportId : JSValue) (reportId' classification : string) :
  generateMockComparisonData_untyped reportId (JStr classification)
  = generateMockComparisonData reportId' classification.
Proof. reflexivity. Qed.

(** ** C10: the frame of [enhanceReportWithComparison] *)

(** When the function returns, and when it raises. *)
Lemma enhance_outcome (report : gmap string JSValue) (realComparisonData : JSValue) :
  match enhancedAnalysis report realComparisonData with
  | Normal analysis =>
      enhanceReportWithComparison report realComparisonData
      = Returns (<["compliance_analysis" := analysis]> report)
  | TypeError =>
      enhanceReportWithComparison report realComparisonData = Throws report
  end.
Proof.
  unfold enhanceReportWithComparison.
  destruct (enhancedAnalysis report realComparisonData); reflexivity.
Qed.

(** Without real comparison data the function always returns. *)
Lemma enhance_without_real_data (report : gmap string JSValue) :
  ∃ analysis,
    enhanceReportWithComparison report JUndefined
    = Returns (<["compliance_analysis" := analysis]> report).
Proof.
  unfold enhanceReportWithComparison, enhancedAnalysis. cbn.
  destruct (negb _); eauto.
Qed.

(** The test on the real data never raises. *)
Lemma isSuccess_total (realComparisonData : JSValue) :
  ∃ b, isSuccess realComparisonData = Normal b.
Proof.
  unfold isSuccess.
  destruct realComparisonData; cbn;
    try match goal with |- context [if ?c then _ else _] => destruct c end;
    cbn; eauto.
Qed.

(** It raises exactly when the real data is marked successful and has no
    [data] to read the four comparison members from. *)
Lemma enhance_throws_iff (report : gmap string JSValue) (realComparisonData : JSValue) :
  (∃ r, enhanceReportWithComparison report realComparisonData = Throws r)
  ↔ isSuccess realComparisonData = Normal true
    ∧ (JS.get realComparisonData "data" = Normal JUndefined
       ∨ JS.get realComparisonData "data" = Normal JNull).
Proof.
  unfold enhanceReportWithComparison, enhancedAnalysis.
  destruct (isSuccess realComparisonData) as [[|]|] eqn:Hsuccess; cbn.
  - destruct (JS.get realComparisonData "data") as [realData|] eqn:Hdata; cbn.
    + destruct realData; cbn; naive_solver.
    + destruct realComparisonData; cbn in *; discriminate.
  - destruct (negb _); cbn; naive_solver.
  - destruct (isSuccess_total realComparisonData) as [b Hb]. congruence.
Qed.

(** C10: after a call of [enhanceReportWithComparison], on any report object
    and any real-comparison value (also none), every member of the report
    other than [compliance_analysis] is as it was before the call, present
    with the same value or absent; this holds for the report the function
    returns and for the report it leaves behind when it raises. *)
Theorem C10_enhance_frame :
  ∀ (report : gmap string JSValue) (realComparisonData : JSValue) (name : string),
    name ≠ "compliance_analysis" →
    report_after (enhanceReportWithComparison report realComparisonData) !! name
    = report !! name.
Proof.
  intros report realComparisonData name Hname.
  pose proof (enhance_outcome report realComparisonData) as H.
  destruct (enhancedAnalysis report realComparisonData); rewrite H; cbn.
  - by rewrite lookup_insert_ne.
  - reflexivity.
Qed.

(** C10 at a report with an [id] and a [classification] and no real
    comparison data: the [id] is as before. *)
Lemma C10_enhance_frame_witness :
  report_after
    (enhanceReportWithComparison
       (<["classification" := JStr "VALID"]> {["id" := JStr "RPT-001"]})
       JUndefined) !! "id"
  = (<["classification" := JStr "VALID"]> {["id" := JStr "RPT-001"]}
       : gmap string JSValue) !! "id".
Proof. apply C10_enhance_frame. discriminate. Defined.

(** Two calls on a small report. Without real data the function returns and
    sets [compliance_analysis] to the generated analysis; with real data
    marked successful that has no [data], it raises and the report is as it
    was. *)
Example enhance_plain_report :
  let report : gmap string JSValue :=
    <["classification" := JStr "VALID"]> {["id" := JStr "RPT-001"]} in
  enhanceReportWithComparison report JUndefined
  = Returns (<["compliance_analysis" :=
                Encode.of_compliance_analysis
                  (generateMockComparisonData "RPT-001" "VALID")]> report).
Proof. reflexivity. Qed.

Example enhance_success_without_data :
  let report : gmap string JSValue :=
    <["classification" := JStr "VALID"]> {["id" := JStr "RPT-001"]} in
  enhanceReportWithComparison report (JS.object [("status", JStr "success")])
  = Throws report.
Proof. vm_compute. reflexivity. Qed.

(** * Further properties of the code *)

(** ** [enhanceReportWithComparison]: what the new analysis holds *)

Section WithComparison.
Variables (base dc fc gc vm : JSValue).

Lemma withComparison_members :
  ∃ o, withComparison base dc fc gc vm = JObj o
       ∧ o !! "date_comparison" = Some dc
       ∧ o !! "financial_comparison" = Some fc
       ∧ o !! "ground_truth_comparison" = Some gc
       ∧ o !! "validation_metrics" = Some vm
       ∧ ∀ name, name ∉ comparisonMembers → o !! name = JS.spread base !! name.
Proof.
  eexists. split; [reflexivity|].
  repeat split; try (by simplify_map_eq).
  intros name Hname. unfold comparisonMembers in Hname.
  rewrite !lookup_insert_ne; [done | set_solver..].
Qed.

Lemma withComparison_idem :
  withComparison (withComparison base dc fc gc vm) dc fc gc vm
  = withComparison base dc fc gc vm.
Proof.
  unfold withComparison; cbn. f_equal. apply map_eq. intros name.
  destruct (decide (name = "validation_metrics")) as [->|];
    [by simplify_map_eq|].
  destruct (decide (name = "ground_truth_comparison")) as [->|];
    [by simplify_map_eq|].
  destruct (decide (name = "financial_comparison")) as [->|];
    [by simplify_map_eq|].
  destruct (decide (name = "date_comparison")) as [->|];
    [by simplify_map_eq|].
  by rewrite !lookup_insert_ne.
Qed.

End WithComparison.

(** The whole generated analysis already carries its own four comparison
    members. *)
Lemma withComparison_generated (a : ComplianceAnalysis) :
  withComparison (Encode.of_compliance_analysis a)
    (Encode.of_date_comparison (date_comparison a))
    (Encode.of_financial_comparison (financial_comparison a))
    (Encode.of_ground_truth_comparison (ground_truth_comparison a))
    (Encode.of_validation_metrics (validation_metrics a))
  = Encode.of_compliance_analysis a.
Proof.
  unfold withComparison, Encode.of_compliance_analysis, JS.object; cbn [JS.spread].
  by f_equal.
Qed.

Lemma member_insert_eq (report : gmap string JSValue) (name : string) (v : JSValue) :
  JS.member (<[name := v]> report) name = v.
Proof. unfold JS.member. by rewrite lookup_insert_eq. Qed.

Lemma member_insert_ne (report : gmap string JSValue) (name name' : string)
    (v : JSValue) :
  name ≠ name' → JS.member (<[name := v]> report) name' = JS.member report name'.
Proof. intros. unfold JS.member. by rewrite lookup_insert_ne. Qed.

(** The analysis computed for a report that was just enhanced with the same
    real data is the analysis it already carries. *)
Lemma enhancedAnalysis_again (report : gmap string JSValue)
    (realComparisonData analysis : JSValue) :
  enhancedAnalysis report realComparisonData = Normal analysis →
  enhancedAnalysis (<["compliance_analysis" := analysis]> report) realComparisonData
  = Normal analysis.
Proof.
  unfold enhancedAnalysis.
  rewrite member_insert_eq, !member_insert_ne by done.
  destruct (isSuccess realComparisonData) as [[|]|]; cbn; [| |done].
  - destruct (JS.get realComparisonData "data") as [realData|]; cbn; [|done].
    destruct (JS.get realData "date_comparison") as [dc|]; cbn; [|done].
    destruct (JS.get realData "financial_comparison") as [fc|]; cbn; [|done].
    destruct (JS.get realData "ground_truth_comparison") as [gc|]; cbn; [|done].
    destruct (JS.get realData "validation_metrics") as [vm|]; cbn; [|done].
    intros [= <-]. by rewrite withComparison_idem.
  - destruct (negb (JS.truthy (JS.member report "compliance_analysis")));
      intros [= <-].
    + cbn. by rewrite withComparison_generated.
    + cbn. by rewrite withComparison_idem.
Qed.

(** X1. Enhancing is idempotent: a second call with the same real-comparison
    value on the report the first call left behind ends as the first call
    did, with the same report. *)
Theorem enhance_idempotent :
  ∀ (report : gmap string JSValue) (realComparisonData : JSValue),
    enhanceReportWithComparison
      (report_after (enhanceReportWithComparison report realComparisonData))
      realComparisonData
    = enhanceReportWithComparison report realComparisonData.
Proof.
  intros report realComparisonData.
  unfold enhanceReportWithComparison at 2 3.
  destruct (enhancedAnalysis report realComparisonData) as [analysis|] eqn:E; cbn.
  - unfold enhanceReportWithComparison.
    rewrite (enhancedAnalysis_again _ _ _ E). by rewrite insert_insert_eq.
  - unfold enhanceReportWithComparison. by rewrite E.
Qed.

(** On a report that carries an analysis object, whatever the path taken,
    the new analysis is that object with the four members set. *)
Lemma enhancedAnalysis_on_object (report o : gmap string JSValue)
    (realComparisonData analysis : JSValue) :
  report !! "compliance_analysis" = Some (JObj o) →
  enhancedAnalysis report realComparisonData = Normal analysis →
  ∃ dc fc gc vm, analysis = withComparison (JObj o) dc fc gc vm.
Proof.
  intros Ho.
  assert (JS.member report "compliance_analysis" = JObj o) as Hmember
    by (unfold JS.member; by rewrite Ho).
  unfold enhancedAnalysis. rewrite !Hmember.
  destruct (isSuccess realComparisonData) as [[|]|]; cbn; [| |done].
  - destruct (JS.get realComparisonData "data") as [realData|]; cbn; [|done].
    destruct (JS.get realData "date_comparison") as [dc|]; cbn; [|done].
    destruct (JS.get realData "financial_comparison") as [fc|]; cbn; [|done].
    destruct (JS.get realData "ground_truth_comparison") as [gc|]; cbn; [|done].
    destruct (JS.get realData "validation_metrics") as [vm|]; cbn; [|done].
    intros [= <-]. eauto.
  - intros [= <-]. eauto.
Qed.

(** X2. A report that already carries an analysis object keeps every member
    of that object other than the four comparison members, with real data
    and with generated data alike. *)
Theorem enhance_keeps_other_analysis_members :
  ∀ (report o r' : gmap string JSValue) (realComparisonData : JSValue)
    (name : string),
    report !! "compliance_analysis" = Some (JObj o) →
    enhanceReportWithComparison report realComparisonData = Returns r' →
    name ∉ comparisonMembers →
    ∃ o', r' !! "compliance_analysis" = Some (JObj o') ∧ o' !! name = o !! name.
Proof.
  intros report o r' realComparisonData name Ho Hret Hname.
  unfold enhanceReportWithComparison in Hret.
  destruct (enhancedAnalysis report realComparisonData) as [analysis|] eqn:E;
    [|done].
  injection Hret as <-.
  destruct (enhancedAnalysis_on_object _ _ _ _ Ho E) as (dc & fc & gc & vm & ->).
  destruct (withComparison_members (JObj o) dc fc gc vm)
    as (o' & -> & _ & _ & _ & _ & Hother).
  exists o'. split; [by rewrite lookup_insert_eq | by apply Hother].
Qed.

(** X2 on a report whose analysis holds an [overall_compliance_score] from
    the backend, enhanced without real data. *)
Lemma enhance_keeps_other_analysis_members_witness :
  let o : gmap string JSValue := {["overall_compliance_score" := JNum 85.5]} in
  let report : gmap string JSValue :=
    <["compliance_analysis" := JObj o]> {["classification" := JStr "VALID"]} in
  ∃ o', report_after (enhanceReportWithComparison report JUndefined)
          !! "compliance_analysis" = Some (JObj o')
        ∧ o' !! "overall_compliance_score" = o !! "overall_compliance_score".
Proof.
  intros o report.
  apply (enhance_keeps_other_analysis_members report o _ JUndefined).
  - reflexivity.
  - reflexivity.
  - unfold comparisonMembers. set_solver.
Defined.

(** X3. Real data marked ['success'] that carries a [data] object wins: the
    function returns, and the new analysis is the old one with the four
    members read from [data] ([undefined] for a member [data] lacks); the
    generator is not consulted. *)
Theorem enhance_with_real_data :
  ∀ (report payload data : gmap string JSValue),
    payload !! "status" = Some (JStr "success") →
    payload !! "data" = Some (JObj data) →
    enhanceReportWithComparison report (JObj payload)
    = Returns
        (<["compliance_analysis" :=
            withComparison (JS.member report "compliance_analysis")
              (JS.member data "date_comparison")
              (JS.member data "financial_comparison")
              (JS.member data "ground_truth_comparison")
              (JS.member data "validation_metrics")]> report).
Proof.
  intros report payload data Hstatus Hdata.
  assert (JS.member payload "status" = JStr "success") as Hs
    by (unfold JS.member; by rewrite Hstatus).
  assert (JS.member payload "data" = JObj data) as Hd
    by (unfold JS.member; by rewrite Hdata).
  unfold enhanceReportWithComparison, enhancedAnalysis, isSuccess; cbn.
  rewrite Hs; cbn. rewrite Hd; cbn. reflexivity.
Qed.

(** X3 with real data that carries a date comparison only. *)
Lemma enhance_with_real_data_witness :
  let data : gmap string JSValue := {["date_comparison" := JStr "real"]} in
  let payload : gmap string JSValue :=
    <["data" := JObj data]> {["status" := JStr "success"]} in
  let report : gmap string JSValue := {["classification" := JStr "VALID"]} in
  enhanceReportWithComparison report (JObj payload)
  = Returns
      (<["compliance_analysis" :=
          withComparison (JS.member report "compliance_analysis")
            (JS.member data "date_comparison")
            (JS.member data "financial_comparison")
            (JS.member data "ground_truth_comparison")
            (JS.member data "validation_metrics")]> report).
Proof.
  intros data payload report.
  apply (enhance_with_real_data report payload data); reflexivity.
Defined.

(** A report whose analysis is the string of one character beyond ASCII: the
    spread copies its single code unit under the index 0, so the new
    analysis has five members. *)
Example enhance_over_a_string_analysis :
  let report : gmap string JSValue := {["compliance_analysis" := JStr "€"]} in
  JS.spread (JStr "€") = {["0" := JStr "€"]}
  ∧ ∃ o', enhanceReportWithComparison report JUndefined
          = Returns (<["compliance_analysis" := JObj o']> report)
        ∧ size o' = 5 ∧ o' !! "0" = Some (JStr "€").
Proof.
  split; [reflexivity|]. eexists. split; [reflexivity|]. split; reflexivity.
Qed.

(** Without real data marked ['success'] the new analysis is the generated
    one, whole or laid over the analysis the report has. *)
Lemma enhancedAnalysis_generated (report : gmap string JSValue)
    (realComparisonData : JSValue) :
  isSuccess realComparisonData = Normal false →
  enhancedAnalysis report realComparisonData
  = let mockData :=
      generateMockComparisonData_untyped (JS.member report "id")
                                         (JS.member report "classification") in
    Normal
      (if negb (JS.truthy (JS.member report "compliance_analysis")) then
         Encode.of_compliance_analysis mockData
       else
         withComparison (JS.member report "compliance_analysis")
           (Encode.of_date_comparison (date_comparison mockData))
           (Encode.of_financial_comparison (financial_comparison mockData))
           (Encode.of_ground_truth_comparison (ground_truth_comparison mockData))
           (Encode.of_validation_metrics (validation_metrics mockData))).
Proof.
  intros Hsuccess. unfold enhancedAnalysis. rewrite Hsuccess.
  cbv zeta. unfold mbind, Completion_bind.
  by destruct (negb (JS.truthy (JS.member report "compliance_analysis"))).
Qed.

(** X4. Real data that is not marked ['success'] (absent, an error response,
    any other value) is ignored: the call ends as the call without real data
    does, it returns, and the four comparison members of the new analysis are
    the generated ones for [report.classification], replacing any the report's
    analysis already had. *)
Theorem enhance_without_success_uses_generator :
  ∀ (report : gmap string JSValue) (realComparisonData : JSValue),
    isSuccess realComparisonData = Normal false →
    let mockData :=
      generateMockComparisonData_untyped (JS.member report "id")
                                         (JS.member report "classification") in
    enhanceReportWithComparison report realComparisonData
    = enhanceReportWithComparison report JUndefined
    ∧ ∃ o', enhanceReportWithComparison report realComparisonData
            = Returns (<["compliance_analysis" := JObj o']> report)
          ∧ o' !! "date_comparison"
            = Some (Encode.of_date_comparison (date_comparison mockData))
          ∧ o' !! "financial_comparison"
            = Some (Encode.of_financial_comparison (financial_comparison mockData))
          ∧ o' !! "ground_truth_comparison"
            = Some (Encode.of_ground_truth_comparison
                      (ground_truth_comparison mockData))
          ∧ o' !! "validation_metrics"
            = Some (Encode.of_validation_metrics (validation_metrics mockData)).
Proof.
  intros report realComparisonData Hsuccess mockData. subst mockData.
  unfold enhanceReportWithComparison.
  rewrite (enhancedAnalysis_generated report realComparisonData Hsuccess).
  rewrite (enhancedAnalysis_generated report JUndefined eq_refl).
  cbv zeta. split; [reflexivity|].
  destruct (negb (JS.truthy (JS.member report "compliance_analysis"))).
  - eexists. split; [reflexivity|]. repeat split; reflexivity.
  - match goal with
    | |- context [withComparison ?b ?dc ?fc ?gc ?vm] =>
        destruct (withComparison_members b dc fc gc vm)
          as (o' & -> & ? & ? & ? & ? & _)
    end.
    exists o'. auto.
Qed.

(** X4 on an error response passed as real data, for a report whose
    analysis already has a [date_comparison]. *)
Lemma enhance_without_success_uses_generator_witness :
  let report : gmap string JSValue :=
    <["compliance_analysis" := JS.object [("date_comparison", JStr "backend")]]>
      {["classification" := JStr "VALID"]} in
  let realComparisonData := JS.object [("status", JStr "error")] in
  let mockData :=
    generateMockComparisonData_untyped (JS.member report "id")
                                       (JS.member report "classification") in
  enhanceReportWithComparison report realComparisonData
  = enhanceReportWithComparison report JUndefined
  ∧ ∃ o', enhanceReportWithComparison report realComparisonData
          = Returns (<["compliance_analysis" := JObj o']> report)
        ∧ o' !! "date_comparison"
          = Some (Encode.of_date_comparison (date_comparison mockData))
        ∧ o' !! "financial_comparison"
          = Some (Encode.of_financial_comparison (financial_comparison mockData))
        ∧ o' !! "ground_truth_comparison"
          = Some (Encode.of_ground_truth_comparison
                    (ground_truth_comparison mockData))
        ∧ o' !! "validation_metrics"
          = Some (Encode.of_validation_metrics (validation_metrics mockData)).
Proof.
  intros report realComparisonData mockData.
  apply (enhance_without_success_uses_generator report realComparisonData).
  reflexivity.
Defined.

(** ** The date computation on arbitrary arrays *)

Section PairwiseCounts.
Implicit Types first second : list string.

Lemma count_full first second :
  statementGtMatches first second = length first ↔ ∀ d, d ∈ first → d ∈ second.
Proof.
  induction first as [|x first IH].
  - split; [intros _ d Hd; by apply not_elem_of_nil in Hd | done].
  - rewrite statementGtMatches_cons. cbn [length].
    pose proof (statementGtMatches_le_length first second) as Hle.
    destruct (includes second x) eqn:Hx.
    + apply includes_spec in Hx. split.
      * intros Heq d Hd. apply elem_of_cons in Hd as [->|Hd]; [done|].
        apply IH; [lia | done].
      * intros Hall. f_equal. apply IH. intros d Hd. apply Hall. by right.
    + split; [lia|].
      intros Hall. assert (x ∈ second) as Hin by (apply Hall; by left).
      apply includes_spec in Hin. congruence.
Qed.

Lemma count_none first second :
  statementGtMatches first second = 0 ↔ ∀ d, d ∈ first → d ∉ second.
Proof.
  induction first as [|x first IH].
  - split; [intros _ d Hd; by apply not_elem_of_nil in Hd | done].
  - rewrite statementGtMatches_cons.
    destruct (includes second x) eqn:Hx.
    + split; [lia|]. apply includes_spec in Hx.
      intros Hall. exfalso. apply (Hall x); [by left | done].
    + cbn. rewrite IH. split.
      * intros Hall d Hd. apply elem_of_cons in Hd as [->|Hd]; [|by apply Hall].
        intros Hin. apply includes_spec in Hin. congruence.
      * intros Hall d Hd. apply Hall. by right.
Qed.

Lemma count_app first first' second :
  statementGtMatches (first ++ first') second
  = statementGtMatches first second + statementGtMatches first' second.
Proof.
  unfold statementGtMatches. by rewrite List.filter_app, length_app.
Qed.

Lemma count_same_entries first second second' :
  (∀ d, d ∈ second ↔ d ∈ second') →
  statementGtMatches first second = statementGtMatches first second'.
Proof.
  intros Hsame. induction first as [|x first IH]; [done|].
  rewrite !statementGtMatches_cons, IH. f_equal.
  destruct (includes second x) eqn:Hx, (includes second' x) eqn:Hx';
    try done.
  - apply includes_spec, Hsame, includes_spec in Hx. congruence.
  - apply includes_spec, Hsame, includes_spec in Hx'. congruence.
Qed.

End PairwiseCounts.

(** X5. On any three date arrays the sum of the three pairwise counts is at
    most three times [totalPossibleMatches] (the numerator of the percentage
    never exceeds its denominator), and three equal arrays reach the bound:
    every count is then the array length. *)
Theorem match_counts_bounded :
  ∀ statement treaty ground_truth : list string,
    statementGtMatches statement ground_truth
    + treatyGtMatches treaty ground_truth
    + statementTreatyMatches statement treaty
    ≤ 3 * totalPossibleMatches statement treaty ground_truth
    ∧ statementGtMatches statement statement = length statement
    ∧ totalPossibleMatches statement statement statement = length statement.
Proof.
  intros statement treaty ground_truth.
  destruct (pairwise_counts_same treaty ground_truth) as [-> _].
  destruct (pairwise_counts_same statement treaty) as [_ ->].
  pose proof (statementGtMatches_le_length statement ground_truth).
  pose proof (statementGtMatches_le_length treaty ground_truth).
  pose proof (statementGtMatches_le_length statement treaty).
  unfold totalPossibleMatches. repeat split; [lia | by apply count_full | lia].
Qed.

(** X6. A pairwise count is the length of the first array exactly when every
    entry of the first array occurs in the second, and is 0 exactly when
    none does. *)
Theorem match_count_full_or_none :
  ∀ first second : list string,
    (statementGtMatches first second = length first
     ↔ ∀ d, d ∈ first → d ∈ second)
    ∧ (statementGtMatches first second = 0 ↔ ∀ d, d ∈ first → d ∉ second).
Proof. intros. split; [apply count_full | apply count_none]. Qed.

(** X7. A pairwise count adds up over a split of the first array, and two
    second arrays with the same entries, in any order and with any
    repetition, give the same count. *)
Theorem match_count_by_entries :
  ∀ first first' second second' : list string,
    (∀ d, d ∈ second ↔ d ∈ second') →
    statementGtMatches (first ++ first') second
    = statementGtMatches first second' + statementGtMatches first' second'.
Proof.
  intros first first' second second' Hsame.
  rewrite count_app.
  by rewrite (count_same_entries first _ _ Hsame),
             (count_same_entries first' _ _ Hsame).
Qed.

(** X7 with a second array reordered and repeated. *)
Lemma match_count_by_entries_witness :
  statementGtMatches (["2024-09-15"] ++ ["2024-09-16"; "2024-09-18"])
                     ["2024-09-15"; "2024-09-16"]
  = statementGtMatches ["2024-09-15"]
                       ["2024-09-16"; "2024-09-15"; "2024-09-16"]
    + statementGtMatches ["2024-09-16"; "2024-09-18"]
                         ["2024-09-16"; "2024-09-15"; "2024-09-16"].
Proof. apply match_count_by_entries. intros d. set_solver. Defined.

(** ** The generator over all classifications *)

(** X8. The generator knows two labels, compared exactly: any other
    classification (also a label in other letter case) yields the analysis
    of ["VALID"]. *)
Theorem generator_default_is_valid :
  ∀ reportId reportId' classification : string,
    classification ≠ "POTENTIALLY FRAUDULENT" →
    classification ≠ "INSUFFICIENT EVIDENCE" →
    generateMockComparisonData reportId classification
    = generateMockComparisonData reportId' "VALID".
Proof.
  intros reportId reportId' classification Hhigh Hmedium.
  unfold generateMockComparisonData.
  apply String.eqb_neq in Hhigh, Hmedium. by rewrite Hhigh, Hmedium.
Qed.

(** X8 on a lower-case label. *)
Lemma generator_default_is_valid_witness :
  generateMockComparisonData "RPT-001" "potentially fraudulent"
  = generateMockComparisonData "RPT-002" "VALID".
Proof. apply generator_default_is_valid; discriminate. Defined.

(** X9. In every generated record the four verification flags agree: all
    are false for ["POTENTIALLY FRAUDULENT"] and all are true for any other
    classification, so the number of verified checks is 0 or 4. *)
Theorem verification_all_or_nothing :
  ∀ reportId classification : string,
    let v := verification_status (validation_metrics
               (generateMockComparisonData reportId classification)) in
    let verified := negb (String.eqb classification "POTENTIALLY FRAUDULENT") in
    dates_verified v = verified
    ∧ amounts_verified v = verified
    ∧ commissions_verified v = verified
    ∧ claims_count_verified v = verified
    ∧ Spec.verification_count v = (if verified then 4 else 0).
Proof. by_classification. Qed.

(** X10. In every generated record the derived members agree with the
    amounts beside them: the commission [match] holds exactly when
    [abs(variance_amount) < 5000], with [variance_amount] the difference of
    the two commissions; the claims-count [match] holds exactly when its
    [variance], the difference of the two counts, is 0; and the claim-amount
    [variance] is the difference of the two totals, its hard-coded
    [variance_percentage] being the computed one to one decimal. *)
Theorem generated_checks_consistent :
  ∀ reportId classification : string,
    let a := generateMockComparisonData reportId classification in
    let co := commissions (financial_comparison a) in
    let cl := total_claims_comparison (ground_truth_comparison a) in
    let am := claim_amounts (financial_comparison a) in
    (Commissions.variance_amount co
     = (Commissions.treaty_slip_commission co - Commissions.statement_commission co)%float
     ∧ Commissions.match_ co
       = PrimFloat.ltb (Num.Math_abs (Commissions.variance_amount co)) 5000)
    ∧ (TotalClaimsComparison.variance cl
       = (TotalClaimsComparison.statement_claims cl
          - TotalClaimsComparison.ground_truth_claims cl)%float
       ∧ TotalClaimsComparison.match_ cl
         = PrimFloat.eqb (TotalClaimsComparison.variance cl) 0)
    ∧ (ClaimAmounts.variance am
       = (ClaimAmounts.total_claims_statement am
          - ClaimAmounts.total_claims_ground_truth am)%float
       ∧ PrimFloat.ltb
           (PrimFloat.abs
              (ClaimAmounts.variance_percentage am
               - ClaimAmounts.variance am / ClaimAmounts.total_claims_ground_truth am
                 * 100)%float)
           0.05 = true).
Proof. by_classification. Qed.

(** ** The API service and [fetchReports] *)

(** X11. In the fetch configuration the caller's options win member by
    member, and headers are never merged: [config.headers] is the caller's
    [headers] when given (whether or not it has a Content-Type), otherwise
    only the JSON Content-Type; [credentials] is ['include'] unless the
    caller sets it; nothing else is added. *)
Theorem requestConfig_members :
  ∀ (options : gmap string JSValue) (name : string),
    Api.requestConfig options !! name
    = match options !! name with
      | Some v => Some v
      | None =>
          if String.eqb name "headers" then
            Some (JObj {["Content-Type" := JStr "application/json"]})
          else if String.eqb name "credentials" then Some (JStr "include")
          else None
      end.
Proof.
  intros options name. unfold Api.requestConfig, Api.extend.
  rewrite lookup_union.
  destruct (options !! name) as [v|] eqn:Hname.
  - apply union_Some_l.
  - assert (∀ o : option JSValue, None ∪ o = o) as -> by (by intros []).
    destruct (String.eqb name "headers") eqn:Hh.
    + apply String.eqb_eq in Hh as ->.
      rewrite lookup_insert_eq. unfold JS.member. rewrite Hname. cbn.
      by rewrite (left_id_L ∅ (∪)).
    + apply String.eqb_neq in Hh. rewrite lookup_insert_ne by done.
      destruct (String.eqb name "credentials") eqn:Hc.
      * apply String.eqb_eq in Hc as ->. by rewrite lookup_singleton_eq.
      * apply String.eqb_neq in Hc. by rewrite lookup_singleton_ne.
Qed.

(** A caller that passes an [Authorization] header gets a configuration
    without any Content-Type. *)
Example requestConfig_drops_default_content_type :
  let headers : gmap string JSValue := {["Authorization" := JStr "Bearer t"]} in
  Api.requestConfig {["headers" := JObj headers]} !! "headers"
  = Some (JObj headers)
  ∧ headers !! "Content-Type" = None.
Proof. split; reflexivity. Qed.

Section FetchReports.
Import TicketFeed.
Variable st : FeedState.

(** X12. Every failure of the request ([fetch] rejects, the response is not
    ok, or reading the JSON body of an ok response fails) ends
    [fetchReports] with the loading flag off, the reports as they were, and
    a message taken from the failure: the message of the thrown [Error] (or
    ['Failed to fetch reports'] when it is empty), ['Unknown error occurred']
    for a thrown value that is no [Error], and ['HTTP error! status: N'] for
    a response that is not ok, whose body is not read. *)
Theorem fetchReports_failure_messages :
  (∀ message : string,
     fetchReports (Api.FetchFails (Api.AnError message)) st
     = failed st (if String.eqb message "" then "Failed to fetch reports"
               else message))
  ∧ fetchReports (Api.FetchFails Api.NotAnError) st
    = failed st "Unknown error occurred"
  ∧ (∀ (status : nat) (body : Api.JsonOutcome),
       fetchReports (Api.Responds false status body) st
       = failed st ("HTTP error! status: " +:+ pretty status))
  ∧ (∀ (status : nat) (message : string),
       fetchReports (Api.Responds true status (Api.JsonFails (Api.AnError message))) st
       = failed st (if String.eqb message "" then "Failed to fetch reports"
                 else message))
  ∧ (∀ status : nat,
       fetchReports (Api.Responds true status (Api.JsonFails Api.NotAnError)) st
       = failed st "Unknown error occurred").
Proof.
  split; [|split; [|split; [|split]]].
  - intros message. destruct message; reflexivity.
  - reflexivity.
  - intros status body. reflexivity.
  - intros status message. destruct message; reflexivity.
  - intros status. reflexivity.
Qed.

(** X13. The [catch] block of [fetchReports] runs exactly when the request
    resolves to [null] or [undefined]: a network failure, which resolves to
    an error response, does not reach it, and an ok response with the JSON
    body [null] ends with ['Network error. Please try again.']. *)
Theorem fetchReports_catch :
  (∀ response : JSValue,
     fetchReports_try response st = TypeError
     ↔ response = JUndefined ∨ response = JNull)
  ∧ (∀ status : nat,
       fetchReports (Api.Responds true status (Api.JsonValue JNull)) st
       = failed st "Network error. Please try again.").
Proof.
  split; [|reflexivity].
  intros response. unfold fetchReports_try.
  destruct response as [| |b|x|s|l|o]; cbn; try naive_solver.
  destruct (JS.strict_eq_str (JS.member o "status") "success"); cbn;
    [destruct (JS.truthy (JS.member o "data")); cbn|]; naive_solver.
Qed.

(** X14. An ok response object marked ['success'] replaces the reports
    exactly when its [data] is truthy (an empty array is); with a falsy
    [data], a missing one included, the reports stay and the error is the
    response's [message], or ['Failed to fetch reports'] without one. *)
Theorem fetchReports_success :
  ∀ (response : gmap string JSValue) (status : nat),
    response !! "status" = Some (JStr "success") →
    let data := JS.member response "data" in
    fetchReports (Api.Responds true status (Api.JsonValue (JObj response))) st
    = if JS.truthy data then
        {| reports := data; isLoading := false; error := JNull |}
      else
        {| reports := reports st; isLoading := false;
           error := if JS.truthy (JS.member response "message")
                    then JS.member response "message"
                    else JStr "Failed to fetch reports" |}.
Proof.
  intros response status Hstatus data. subst data.
  assert (JS.member response "status" = JStr "success") as Hs
    by (unfold JS.member; by rewrite Hstatus).
  unfold fetchReports, fetchReports_try; cbn.
  rewrite Hs; cbn.
  by destruct (JS.truthy (JS.member response "data")).
Qed.

End FetchReports.

(** X14 on a response marked ['success'] that has no [data] member. *)
Lemma fetchReports_success_witness :
  let st := {| TicketFeed.reports := JArr [JNull]; TicketFeed.isLoading := false;
               TicketFeed.error := JStr "old" |} in
  let response : gmap string JSValue := {["status" := JStr "success"]} in
  let data := JS.member response "data" in
  TicketFeed.fetchReports
    (Api.Responds true 200 (Api.JsonValue (JObj response))) st
  = if JS.truthy data then
      {| TicketFeed.reports := data; TicketFeed.isLoading := false;
         TicketFeed.error := JNull |}
    else
      {| TicketFeed.reports := TicketFeed.reports st;
         TicketFeed.isLoading := false;
         TicketFeed.error := if JS.truthy (JS.member response "message")
                             then JS.member response "message"
                             else JStr "Failed to fetch reports" |}.
Proof.
  intros st response data.
  apply (fetchReports_success st response 200). reflexivity.
Defined.

(** The two ends of X14: an empty array of reports is accepted, and a
    response without [data] and without [message] keeps the reports and
    ends with ['Failed to fetch reports']. *)
Example fetchReports_empty_array_and_missing_data :
  let st := {| TicketFeed.reports := JArr [JNull]; TicketFeed.isLoading := false;
               TicketFeed.error := JStr "old" |} in
  TicketFeed.fetchReports
    (Api.Responds true 200
       (Api.JsonValue (JS.object [("status", JStr "success"); ("data", JArr [])])))
    st
  = {| TicketFeed.reports := JArr []; TicketFeed.isLoading := false;
       TicketFeed.error := JNull |}
  ∧ TicketFeed.fetchReports
      (Api.Responds true 200 (Api.JsonValue (JS.object [("status", JStr "success")])))
      st
    = failed st "Failed to fetch reports".
Proof. split; reflexivity. Qed.

(** ** The ticket feed helpers *)

Section FraudScore.
Import TicketFeed.
Local Open Scope Z_scope.

(** X15. The fraud score lies in a band fixed by the classification, and the
    bands do not overlap: 80..100 for ["POTENTIALLY FRAUDULENT"], 40..70 for
    ["INSUFFICIENT EVIDENCE"], 5..20 for anything else; it reaches the end
    of its band (100, 70, 5) from four, three and three indicators on. *)
Theorem getFraudScore_bands :
  ∀ (classification : string) (indicators : list string),
    let score := getFraudScore classification indicators in
    let n := Z.of_nat (length indicators) in
    (classification = "POTENTIALLY FRAUDULENT" →
       80 ≤ score ≤ 100 ∧ (4 ≤ n → score = 100))
    ∧ (classification = "INSUFFICIENT EVIDENCE" →
         40 ≤ score ≤ 70 ∧ (3 ≤ n → score = 70))
    ∧ (classification ≠ "POTENTIALLY FRAUDULENT" →
       classification ≠ "INSUFFICIENT EVIDENCE" →
         5 ≤ score ≤ 20 ∧ (3 ≤ n → score = 5))
    ∧ 5 ≤ score ≤ 100.
Proof.
  intros classification indicators score n. subst score n.
  unfold getFraudScore.
  destruct (String.eqb_spec classification "POTENTIALLY FRAUDULENT") as [->|Hh];
    [|destruct (String.eqb_spec classification "INSUFFICIENT EVIDENCE")
        as [->|Hm]];
    cbn; repeat split; try lia; try congruence; try discriminate.
Qed.

(** X16. More indicators never lower the score of the two suspicious
    classifications and never raise the score of any other. *)
Theorem getFraudScore_monotone :
  ∀ (classification : string) (indicators indicators' : list string),
    (length indicators ≤ length indicators')%nat →
    if String.eqb classification "POTENTIALLY FRAUDULENT"
       || String.eqb classification "INSUFFICIENT EVIDENCE"
    then getFraudScore classification indicators
         ≤ getFraudScore classification indicators'
    else getFraudScore classification indicators'
         ≤ getFraudScore classification indicators.
Proof.
  intros classification indicators indicators' Hle. unfold getFraudScore.
  destruct (String.eqb classification "POTENTIALLY FRAUDULENT");
    [|destruct (String.eqb classification "INSUFFICIENT EVIDENCE")];
    cbn; lia.
Qed.

Lemma getFraudScore_monotone_witness :
  if String.eqb "VALID" "POTENTIALLY FRAUDULENT"
     || String.eqb "VALID" "INSUFFICIENT EVIDENCE"
  then getFraudScore "VALID" [] ≤ getFraudScore "VALID" ["late filing"]
  else getFraudScore "VALID" ["late filing"] ≤ getFraudScore "VALID" [].
Proof. apply (getFraudScore_monotone "VALID" [] ["late filing"]). cbn. lia. Defined.

(** X17. The colour of a ticket's fraud score follows the classification:
    always red for ["POTENTIALLY FRAUDULENT"], never red for
    ["INSUFFICIENT EVIDENCE"] (green without indicators, yellow with any),
    always green for anything else. *)
Theorem fraud_score_colour :
  ∀ (classification : string) (indicators : list string),
    getFraudScoreColor (getFraudScore classification indicators)
    = if String.eqb classification "POTENTIALLY FRAUDULENT" then "text-red-600"
      else if String.eqb classification "INSUFFICIENT EVIDENCE" then
        match indicators with
        | [] => "text-green-600"
        | _ :: _ => "text-yellow-600"
        end
      else "text-green-600".
Proof.
  intros classification indicators.
  unfold getFraudScore, getFraudScoreColor.
  destruct (String.eqb classification "POTENTIALLY FRAUDULENT");
    [|destruct (String.eqb classification "INSUFFICIENT EVIDENCE")].
  - destruct (Z.leb_spec 80 (Z.min (80 + Z.of_nat (length indicators) * 5) 100));
      [done | lia].
  - destruct indicators as [|i indicators]; [reflexivity|].
    cbn [length].
    destruct (Z.leb_spec 80 (Z.min (40 + Z.of_nat (S (length indicators)) * 10) 70));
      [lia|].
    destruct (Z.leb_spec 50 (Z.min (40 + Z.of_nat (S (length indicators)) * 10) 70));
      [done | lia].
  - destruct (Z.leb_spec 80 (Z.max 5 (20 - Z.of_nat (length indicators) * 5)));
      [lia|].
    destruct (Z.leb_spec 50 (Z.max 5 (20 - Z.of_nat (length indicators) * 5)));
      [lia | done].
Qed.

End FraudScore.

(** X18. The status shown for a ticket and the risk level generated for it
    agree on the flagged case only: the status is ['Flagged'] exactly when
    the generated risk level is ["HIGH"], a ["MEDIUM"] risk is always
    ['Pending Review'] and an ['Auto Approved'] ticket is always ["LOW"];
    but a classification outside the three labels is ['Pending Review'] with
    a ["LOW"] generated risk. *)
Theorem status_and_generated_risk :
  ∀ reportId classification : string,
    let status := TicketFeed.getStatusFromClassification classification in
    let risk := overall_risk_level
                  (generateMockComparisonData reportId classification) in
    (status = "Flagged" ↔ risk = "HIGH")
    ∧ (risk = "MEDIUM" → status = "Pending Review")
    ∧ (status = "Auto Approved" → risk = "LOW")
    ∧ (classification ≠ "VALID" → risk = "LOW" → status = "Pending Review").
Proof.
  intros reportId classification status risk. subst status risk.
  unfold TicketFeed.getStatusFromClassification, generateMockComparisonData.
  destruct (String.eqb_spec classification "VALID") as [->|Hv];
    [cbn; repeat split; congruence|].
  destruct (String.eqb_spec classification "POTENTIALLY FRAUDULENT") as [->|Hh];
    [cbn; repeat split; congruence|].
  destruct (String.eqb_spec classification "INSUFFICIENT EVIDENCE") as [->|Hm];
    cbn; repeat split; congruence.
Qed.

(** [v === s] holds for the string [s] only. *)
Lemma strict_eq_str_spec (v : JSValue) (s : string) :
  JS.strict_eq_str v s = true ↔ v = JStr s.
Proof.
  destruct v; cbn; try (split; [discriminate | intros [=]]).
  rewrite String.eqb_eq. split; [by intros -> | by intros [= ->]].
Qed.

(** X19. Closing a ticket removes exactly the reports it was made from: the
    ticket id [#id] gives back [id] (also when [id] itself contains [#]),
    and the reports left are those whose [id] is not the string [id], in
    their order. *)
Theorem handleCloseTicket_removes_report :
  ∀ (reportId : string) (prevReports : list (gmap string JSValue)),
    TicketFeed.removeFirstHash (TicketFeed.ticketId reportId) = reportId
    ∧ (∀ report,
         report ∈ TicketFeed.handleCloseTicket (TicketFeed.ticketId reportId)
                    prevReports
         ↔ report ∈ prevReports ∧ JS.member report "id" ≠ JStr reportId)
    ∧ TicketFeed.handleCloseTicket (TicketFeed.ticketId reportId) prevReports
      `sublist_of` prevReports.
Proof.
  intros reportId prevReports. split; [reflexivity|]. split.
  - intros report. unfold TicketFeed.handleCloseTicket. cbn.
    rewrite !list_elem_of_In, List.filter_In, negb_true_iff.
    rewrite <- not_true_iff_false, strict_eq_str_spec. done.
  - unfold TicketFeed.handleCloseTicket. cbn.
    induction prevReports as [|r rs IH]; cbn; [constructor|].
    destruct (negb _); by constructor.
Qed.
